(** * netbox_access_lists/forms.py: the cross-field validators

    A shallow embedding of the three [clean] methods of
    [AccessListForm], [ACLStandardRuleForm] and [ACLExtendedRuleForm],
    and the properties of the validation rules they implement.

    - [cleaned_data] and [self.errors] are Python dicts keyed by field
      name: [gmap string _].
    - A [clean] method runs against the database, may raise
      [forms.ValidationError], and returns [cleaned_data]: a computation in
      a state-and-error monad over the database, which also records the
      queries it issued. *)

From Stdlib Require Import ZArith.
From stdpp Require Import base option list strings gmap.

Local Open Scope Z_scope.
Local Open Scope string_scope.

(** ** Cleaned values *)

(** What the form fields of these three forms put into [cleaned_data]:
    [None] (an optional field left empty), a [str] (CharField and choice
    fields: name, remark, action, protocol), a list of integers (the port
    arrays), or a model instance, held by primary key (device, access_list,
    the prefixes). *)
Inductive value : Type :=
  | VNone
  | VStr (s : string)
  | VList (l : list Z)
  | VObj (pk : Z).

(** Python truthiness, as tested by [if cleaned_data.get(...)]. A model
    instance defines neither [__bool__] nor [__len__] and is always true. *)
Definition truthy (v : value) : bool :=
  match v with
  | VNone => false
  | VStr s => negb (String.eqb s "")
  | VList l => negb (Nat.eqb (length l) 0)
  | VObj _ => true
  end.

(** [d.get(key)]: the value, or [None] when the key is absent. *)
Definition dict_get (d : gmap string value) (key : string) : value :=
  default VNone (d !! key).

(** [self.errors.get(field)] tested as a condition: a missing entry is
    [None], an entry is an [ErrorList], true when it is not empty. *)
Definition errors_get (errors : gmap string (list string)) (field : string) : bool :=
  match errors !! field with
  | None => false
  | Some l => negb (Nat.eqb (length l) 0)
  end.

(** ** Case-insensitive comparison *)

(** [name__iexact] compares [UPPER(column)] with [UPPER(value)]; the
    folding is modelled on the ASCII letters. *)
Definition upper_ascii (c : Ascii.ascii) : Ascii.ascii :=
  let n := Ascii.nat_of_ascii c in
  if (Nat.leb 97 n && Nat.leb n 122)%bool then Ascii.ascii_of_nat (n - 32) else c.

Fixpoint upper (s : string) : string :=
  match s with
  | EmptyString => EmptyString
  | String c s' => String (upper_ascii c) (upper s')
  end.

Definition iexact (a b : string) : bool := String.eqb (upper a) (upper b).

(** ** The ACL store *)

(** A row of the [AccessList] table, with the columns the form queries.
    Both columns are mandatory in the model: no row holds NULL. *)
Record AccessList : Type := mkAccessList {
  acl_pk : Z;
  acl_name : string;
  acl_device : Z
}.

Record database : Type := mkDatabase {
  access_lists : list AccessList
}.

(** The lookup [name__iexact=v]. A [None] value is turned into
    [name IS NULL], which no row satisfies. *)
Definition name__iexact (v : value) (row : AccessList) : bool :=
  match v with
  | VStr s => iexact (acl_name row) s
  | _ => false
  end.

(** The lookup [device=v]: a model instance is compared by primary key;
    [None] is [device IS NULL], which no row satisfies. *)
Definition device_exact (v : value) (row : AccessList) : bool :=
  match v with
  | VObj pk => Z.eqb (acl_device row) pk
  | _ => false
  end.

(** ** Validation computations *)

Inductive error : Type :=
  | ValidationError (message : string).

Inductive outcome (A : Type) : Type :=
  | Returned (a : A)
  | Raised (e : error).
Arguments Returned {A} a.
Arguments Raised {A} e.

(** A query sent to the database. *)
Inductive query : Type :=
  | QExists (name device : value).

(** A computation: from the database to an outcome, the database it
    leaves, and the queries it issued, in order. *)
Definition M (A : Type) : Type := database -> outcome A * database * list query.

Definition ret {A} (a : A) : M A := fun db => (Returned a, db, []).

(** [raise e] *)
Definition raise {A} (e : error) : M A := fun db => (Raised e, db, []).

Definition bind {A B} (k : A -> M B) (m : M A) : M B :=
  fun db =>
    match m db with
    | (Returned a, db1, q1) =>
        match k a db1 with
        | (r, db2, q2) => (r, db2, (q1 ++ q2)%list)
        end
    | (Raised e, db1, q1) => (Raised e, db1, q1)
    end.

#[export] Instance M_ret : MRet M := @ret.
#[export] Instance M_bind : MBind M := @bind.

(** [AccessList.objects.filter(name__iexact=name, device=device).exists()] *)
Definition objects_filter_exists (name device : value) : M bool :=
  fun db =>
    (Returned (existsb (fun row => (name__iexact name row && device_exact device row)%bool)
                       (access_lists db)),
     db, [QExists name device]).

Definition result {A} (m : M A) (db : database) : outcome A := (m db).1.1.
Definition final_db {A} (m : M A) (db : database) : database := (m db).1.2.
Definition queries {A} (m : M A) (db : database) : list query := (m db).2.

(** ** Forms *)

(** The state of a bound form when [clean] is called: field cleaning has
    filled [cleaned_data] and [errors]; [changed_data] lists the fields
    whose submitted value differs from the initial one; [instance] is the
    primary key of the object being edited, [None] for a new object. *)
Record form : Type := mkForm {
  instance : option Z;
  cleaned_data : gmap string value;
  errors : gmap string (list string);
  changed_data : list string
}.

(** [super().clean()] of a model form hands back [self.cleaned_data]. *)
Definition super_clean (self : form) : M (gmap string value) :=
  mret (cleaned_data self).

Definition in_list (x : string) (l : list string) : bool :=
  existsb (String.eqb x) l.

Definition duplicate_name_message : string :=
  "An ACL with this name (case insensitive) is already associated to this device.".

Module AccessListForm.

Definition clean (self : form) : M (gmap string value) :=
  cleaned_data ← super_clean self;
  if errors_get (errors self) "name" then mret cleaned_data
  else
    let name := dict_get cleaned_data "name" in
    let device := dict_get cleaned_data "device" in
    if (in_list "name" (changed_data self) || in_list "device" (changed_data self))%bool
    then
      found ← objects_filter_exists name device;
      if (found : bool) then raise (ValidationError duplicate_name_message)
      else mret cleaned_data
    else mret cleaned_data.

End AccessListForm.

Module ACLStandardRuleForm.

Definition clean (self : form) : M (gmap string value) :=
  cleaned_data ← super_clean self;
  if truthy (dict_get cleaned_data "remark") then
    if truthy (dict_get cleaned_data "action") then
      raise (ValidationError "Cannot input a remark AND an action. Remove one.")
    else if truthy (dict_get cleaned_data "source_prefix") then
      raise (ValidationError "Cannot input a remark AND a source prefix. Remove one.")
    else mret cleaned_data
  else mret cleaned_data.

End ACLStandardRuleForm.

Module ACLExtendedRuleForm.

Definition clean (self : form) : M (gmap string value) :=
  cleaned_data ← super_clean self;
  if truthy (dict_get cleaned_data "remark") then
    if truthy (dict_get cleaned_data "action") then
      raise (ValidationError "Cannot input a remark AND an action. Remove one.")
    else if truthy (dict_get cleaned_data "source_prefix") then
      raise (ValidationError "Cannot input a remark AND a source prefix. Remove one.")
    else if truthy (dict_get cleaned_data "source_ports") then
      raise (ValidationError "Cannot input a remark AND source ports. Remove one.")
    else if truthy (dict_get cleaned_data "destination_prefix") then
      raise (ValidationError "Cannot input a remark AND a destination prefix. Remove one.")
    else if truthy (dict_get cleaned_data "destination_ports") then
      raise (ValidationError "Cannot input a remark AND destination ports. Remove one.")
    else if truthy (dict_get cleaned_data "protocol") then
      raise (ValidationError "Cannot input a remark AND a protocol. Remove one.")
    else mret cleaned_data
  else mret cleaned_data.

End ACLExtendedRuleForm.

(** ** Vocabulary of the properties *)

(** The condition ['name' in self.changed_data or 'device' in
    self.changed_data]. *)
Definition name_or_device_changed (self : form) : bool :=
  (in_list "name" (changed_data self) || in_list "device" (changed_data self))%bool.

(** The filter of the existence check, on one row. *)
Definition same_name_and_device (name device : value) (row : AccessList) : bool :=
  (name__iexact name row && device_exact device row)%bool.

(** The answer of the existence check for the submitted name and device. *)
Definition duplicate_exists (self : form) (db : database) : bool :=
  existsb (same_name_and_device (dict_get (cleaned_data self) "name")
                                (dict_get (cleaned_data self) "device"))
          (access_lists db).

(** The row is the object the form edits. *)
Definition is_instance (self : form) (row : AccessList) : bool :=
  match instance self with
  | Some pk => Z.eqb (acl_pk row) pk
  | None => false
  end.

(** The condition in the words of the specification: an existing
    AccessList, other than the one being edited, with the same device and
    the same name under case-insensitive comparison. *)
Definition spec_other_acl_matches (self : form) (db : database) : bool :=
  existsb (fun row =>
             (negb (is_instance self row)
              && same_name_and_device (dict_get (cleaned_data self) "name")
                                      (dict_get (cleaned_data self) "device") row)%bool)
          (access_lists db).

(** A submission that creates the AccessList [name] on [device]: the form
    is bound to a new object, both fields passed field validation and, the
    initial values of a new object being blank, both count as changed. *)
Definition creates (self : form) (name : string) (device : Z) : Prop :=
  instance self = None
  /\ errors_get (errors self) "name" = false
  /\ dict_get (cleaned_data self) "name" = VStr name
  /\ dict_get (cleaned_data self) "device" = VObj device
  /\ in_list "name" (changed_data self) = true
  /\ in_list "device" (changed_data self) = true.

(** The logic fields of a rule, in the order the validators test them. *)
Inductive logic_field : Type :=
  | Action
  | SourcePrefix
  | SourcePorts
  | DestinationPrefix
  | DestinationPorts
  | Protocol.

Definition field_key (fld : logic_field) : string :=
  match fld with
  | Action => "action"
  | SourcePrefix => "source_prefix"
  | SourcePorts => "source_ports"
  | DestinationPrefix => "destination_prefix"
  | DestinationPorts => "destination_ports"
  | Protocol => "protocol"
  end.

(** The message of the error that names [fld] as the conflict. *)
Definition conflict_message (fld : logic_field) : string :=
  match fld with
  | Action => "Cannot input a remark AND an action. Remove one."
  | SourcePrefix => "Cannot input a remark AND a source prefix. Remove one."
  | SourcePorts => "Cannot input a remark AND source ports. Remove one."
  | DestinationPrefix => "Cannot input a remark AND a destination prefix. Remove one."
  | DestinationPorts => "Cannot input a remark AND destination ports. Remove one."
  | Protocol => "Cannot input a remark AND a protocol. Remove one."
  end.

Definition standard_fields : list logic_field := [Action; SourcePrefix].

Definition extended_fields : list logic_field :=
  [Action; SourcePrefix; SourcePorts; DestinationPrefix; DestinationPorts; Protocol].

Definition populated (cd : gmap string value) (fld : logic_field) : bool :=
  truthy (dict_get cd (field_key fld)).

(** The first populated field of [fields], in list order. *)
Definition first_populated (fields : list logic_field) (cd : gmap string value)
  : option logic_field :=
  find (populated cd) fields.

Definition DuplicateName : error := ValidationError duplicate_name_message.

Definition MutuallyExclusiveFields (fld : logic_field) : error :=
  ValidationError (conflict_message fld).

(** What field validation guarantees about the name when [clean] runs: a
    field that carries an error has no entry in [cleaned_data] (recording a
    field error deletes the entry). A form without a name error satisfies
    it trivially. *)
Definition name_error_consistent (self : form) : Prop :=
  errors_get (errors self) "name" = true -> cleaned_data self !! "name" = None.

(** ** Sample data: the scenarios of the specification *)

Definition D1 : Z := 1.
Definition D2 : Z := 2.

Definition edge_in_on_D1 : database :=
  mkDatabase [mkAccessList 10 "Edge-In" D1].

Definition submission (inst : option Z) (name : string) (device : Z)
    (changed : list string) : form :=
  mkForm inst (<["name" := VStr name]> (<["device" := VObj device]> ∅)) ∅ changed.

Definition rule_form (cd : gmap string value) : form :=
  mkForm None cd ∅ [].

(** Editing the AccessList 10, "Edge-In" on D1, to rename it "edge-in". *)
Definition rename_case : form := submission (Some 10) "edge-in" D1 ["name"].

(** A submission whose name failed field validation: the error is
    recorded and [cleaned_data] has no name. *)
Definition name_rejected : form :=
  mkForm None (<["device" := VObj D1]> ∅)
         (<["name" := ["This field is required."]]> ∅) ["device"].

(** Rule submissions. *)
Definition remark_and_protocol : form :=
  rule_form (<["remark" := VStr "allow mgmt"]> (<["protocol" := VStr "tcp"]> ∅)).

Definition remark_action_prefix : form :=
  rule_form (<["remark" := VStr "uplink"]>
               (<["action" := VStr "permit"]> (<["source_prefix" := VObj 5]> ∅))).

Definition remark_only : form :=
  rule_form (<["remark" := VStr "uplink"]>
               (<["action" := VStr ""]> (<["source_prefix" := VNone]> ∅))).

Definition action_and_prefix : form :=
  rule_form (<["remark" := VStr ""]>
               (<["action" := VStr "deny"]> (<["source_prefix" := VObj 5]> ∅))).

Definition action_only : form :=
  rule_form (<["remark" := VStr ""]>
               (<["action" := VStr "deny"]> (<["source_prefix" := VNone]> ∅))).

Definition empty_rule : form :=
  rule_form (<["remark" := VStr ""]> (<["action" := VStr ""]> ∅)).

(** ** Vocabulary of the further properties *)

(** What the caller of [clean] sees of the outcome: the error raised, or
    [None] when the validator returned. *)
Definition verdict {A} (m : M A) (db : database) : option error :=
  match result m db with
  | Returned _ => None
  | Raised e => Some e
  end.

(** The form with another [cleaned_data]. *)
Definition with_cleaned_data (self : form) (cd : gmap string value) : form :=
  mkForm (instance self) cd (errors self) (changed_data self).

(** The keys each rule validator reads, in the order it reads them. *)
Definition standard_keys : list string := "remark" :: map field_key standard_fields.
Definition extended_keys : list string := "remark" :: map field_key extended_fields.

(** Two dicts hold values of the same truth value under each of [keys]. *)
Definition same_truth (keys : list string) (cd cd' : gmap string value) : Prop :=
  forall k, In k keys -> truthy (dict_get cd k) = truthy (dict_get cd' k).

(** What identifies an AccessList on its device: the device and the name
    folded to upper case. *)
Definition acl_key (row : AccessList) : Z * string :=
  (acl_device row, upper (acl_name row)).

(** Names are unique per device, case-insensitively. *)
Definition unique_per_device (rows : list AccessList) : Prop :=
  NoDup (map acl_key rows).

(** ** Form declarations *)

(** [Meta.fields] and [fieldsets] of the three model forms, as declared. *)
Definition AccessListForm_fields : list string :=
  ["region"; "site_group"; "site"; "device"; "name"; "type"; "default_action";
   "comments"; "tags"].

Definition AccessListForm_fieldsets : list (string * list string) :=
  [("Host Details", ["region"; "site_group"; "site"; "device"]);
   ("Access-List Details", ["name"; "type"; "default_action"; "tags"])].

Definition ACLStandardRuleForm_fields : list string :=
  ["access_list"; "index"; "remark"; "action"; "source_prefix"; "tags"].

Definition ACLStandardRuleForm_fieldsets : list (string * list string) :=
  [("Access-List Details", ["access_list"; "index"; "tags"]);
   ("Rule Logic", ["remark"; "action"; "source_prefix"])].

Definition ACLExtendedRuleForm_fields : list string :=
  ["access_list"; "index"; "remark"; "action"; "source_prefix";
   "source_ports"; "destination_prefix"; "destination_ports"; "protocol";
   "tags"].

Definition ACLExtendedRuleForm_fieldsets : list (string * list string) :=
  [("Access-List Details", ["access_list"; "index"; "tags"]);
   ("Rule Details", ["remark"; "action"; "source_prefix"; "source_ports";
                     "destination_prefix"; "destination_ports"; "protocol"])].

(** The fields a list of fieldsets shows, in display order. *)
Definition fieldset_fields (fieldsets : list (string * list string)) : list string :=
  concat (map snd fieldsets).

(** The fields of the fieldset called [title]. *)
Definition fieldset_named (title : string) (fieldsets : list (string * list string))
  : list string :=
  match find (fun fs => String.eqb (fst fs) title) fieldsets with
  | Some fs => snd fs
  | None => []
  end.


(** The first of [keys] whose value in [cd] is true. *)
Definition first_truthy (keys : list string) (cd : gmap string value) : option string :=
  find (fun k => truthy (dict_get cd k)) keys.

(** ** Running the validators *)

Example upper_edge : upper "Edge-In" = "EDGE-IN".
Proof. reflexivity. Qed.

Example iexact_edge : iexact "Edge-In" "edge-in" = true /\ iexact "Edge-In" "Edge_In" = false.
Proof. split; reflexivity. Qed.

Lemma iexact_refl (a : string) : iexact a a = true.
Proof. unfold iexact. apply String.eqb_refl. Qed.

Lemma iexact_sym (a b : string) : iexact a b = iexact b a.
Proof. unfold iexact. apply String.eqb_sym. Qed.

Example clean_edge :
  result (AccessListForm.clean (submission None "edge-in" D1 ["device"; "name"]))
         edge_in_on_D1
  = Raised DuplicateName.
Proof. vm_compute. reflexivity. Qed.

Example clean_other_device :
  result (AccessListForm.clean (submission None "Edge-In" D2 ["device"; "name"]))
         edge_in_on_D1
  = Returned (cleaned_data (submission None "Edge-In" D2 ["device"; "name"])).
Proof. vm_compute. reflexivity. Qed.

(** [AccessListForm.clean], branch by branch. *)
Lemma AccessListForm_clean_run (self : form) (db : database) :
  AccessListForm.clean self db =
    if errors_get (errors self) "name" then (Returned (cleaned_data self), db, [])
    else if name_or_device_changed self then
      (if duplicate_exists self db then Raised DuplicateName
       else Returned (cleaned_data self),
       db,
       [QExists (dict_get (cleaned_data self) "name")
                (dict_get (cleaned_data self) "device")])
    else (Returned (cleaned_data self), db, []).
Proof.
  unfold AccessListForm.clean, name_or_device_changed, duplicate_exists.
  unfold mbind, M_bind, bind, super_clean, mret, M_ret, ret. simpl.
  destruct (errors_get (errors self) "name"); [reflexivity|].
  destruct (in_list "name" (changed_data self) || in_list "device" (changed_data self))%bool;
    [|reflexivity].
  unfold objects_filter_exists. fold (same_name_and_device
    (dict_get (cleaned_data self) "name") (dict_get (cleaned_data self) "device")).
  destruct (existsb _ _); reflexivity.
Qed.

(** A rule validator never looks at the database: it raises the error of
    the first populated logic field when the remark is set, and returns
    [cleaned_data] otherwise. *)
Lemma ACLStandardRuleForm_clean_run (self : form) (db : database) :
  ACLStandardRuleForm.clean self db =
    (if truthy (dict_get (cleaned_data self) "remark") then
       match first_populated standard_fields (cleaned_data self) with
       | Some fld => Raised (MutuallyExclusiveFields fld)
       | None => Returned (cleaned_data self)
       end
     else Returned (cleaned_data self),
     db, []).
Proof.
  unfold ACLStandardRuleForm.clean, first_populated, standard_fields, populated.
  unfold mbind, M_bind, bind, super_clean, mret, M_ret, ret. simpl.
  destruct (truthy (dict_get (cleaned_data self) "remark")); [|reflexivity].
  repeat (destruct (truthy (dict_get (cleaned_data self) _)); [reflexivity|]).
  reflexivity.
Qed.

Lemma ACLExtendedRuleForm_clean_run (self : form) (db : database) :
  ACLExtendedRuleForm.clean self db =
    (if truthy (dict_get (cleaned_data self) "remark") then
       match first_populated extended_fields (cleaned_data self) with
       | Some fld => Raised (MutuallyExclusiveFields fld)
       | None => Returned (cleaned_data self)
       end
     else Returned (cleaned_data self),
     db, []).
Proof.
  unfold ACLExtendedRuleForm.clean, first_populated, extended_fields, populated.
  unfold mbind, M_bind, bind, super_clean, mret, M_ret, ret. simpl.
  destruct (truthy (dict_get (cleaned_data self) "remark")); [|reflexivity].
  repeat (destruct (truthy (dict_get (cleaned_data self) _)); [reflexivity|]).
  reflexivity.
Qed.

(** The existence check answers yes exactly when some row of the table
    passes both lookups. *)
Lemma duplicate_exists_iff (self : form) (db : database) :
  duplicate_exists self db = true <->
  exists row,
    In row (access_lists db)
    /\ name__iexact (dict_get (cleaned_data self) "name") row = true
    /\ device_exact (dict_get (cleaned_data self) "device") row = true.
Proof.
  unfold duplicate_exists, same_name_and_device. rewrite existsb_exists.
  split; intros (row & Hin & H).
  - apply andb_true_iff in H. exists row. tauto.
  - exists row. split; [exact Hin|]. apply andb_true_iff. exact H.
Qed.

(** Some field of a non-empty selection is populated exactly when a first
    populated one exists. *)
Lemma first_populated_some (fields : list logic_field) (cd : gmap string value) :
  existsb (populated cd) fields = true ->
  exists fld, first_populated fields cd = Some fld.
Proof.
  unfold first_populated. induction fields as [|fld fields IH]; simpl.
  - discriminate.
  - destruct (populated cd fld); [eauto|]. simpl. exact IH.
Qed.

(** The first populated field is populated, and no field before it is. *)
Lemma first_populated_first (fields : list logic_field) (cd : gmap string value)
    (fld : logic_field) :
  first_populated fields cd = Some fld ->
  exists before after,
    fields = (before ++ fld :: after)%list
    /\ populated cd fld = true
    /\ forallb (fun g => negb (populated cd g)) before = true.
Proof.
  unfold first_populated. induction fields as [|g fields IH]; simpl.
  - discriminate.
  - destruct (populated cd g) eqn:Hg.
    + intros [= <-]. exists [], fields. auto.
    + intros H. destruct (IH H) as (before & after & -> & Hp & Hb).
      exists (g :: before), after. simpl. rewrite Hg. auto.
Qed.

(** ** AccessList: name uniqueness per device *)

(** What the existence check of [clean] matches on a changed submission:
    any row of the table with the submitted device and a
    case-insensitively equal name. The filter has no exclusion of the
    object being edited, whose own row can therefore be the match. *)
Lemma AccessListForm_clean_changed (self : form) (db : database) :
  name_error_consistent self ->
  name_or_device_changed self = true ->
  (result (AccessListForm.clean self) db = Raised DuplicateName <->
   exists row,
     In row (access_lists db)
     /\ name__iexact (dict_get (cleaned_data self) "name") row = true
     /\ device_exact (dict_get (cleaned_data self) "device") row = true)
  /\ (result (AccessListForm.clean self) db = Raised DuplicateName
      \/ result (AccessListForm.clean self) db = Returned (cleaned_data self)).
Proof.
  intros Hname Hchanged. rewrite <- duplicate_exists_iff.
  unfold result. rewrite AccessListForm_clean_run, Hchanged.
  destruct (errors_get (errors self) "name") eqn:Herr; simpl.
  - assert (Hnone : duplicate_exists self db = false).
    { unfold duplicate_exists, dict_get. rewrite (Hname Herr). simpl.
      induction (access_lists db) as [|row rows IH]; [reflexivity|exact IH]. }
    rewrite Hnone. split; [|right; reflexivity].
    split; discriminate.
  - destruct (duplicate_exists self db); split; auto; split; auto; discriminate.
Qed.

Lemma AccessListForm_clean_changed_witness :
  (result (AccessListForm.clean rename_case) edge_in_on_D1 = Raised DuplicateName <->
   exists row,
     In row (access_lists edge_in_on_D1)
     /\ name__iexact (dict_get (cleaned_data rename_case) "name") row = true
     /\ device_exact (dict_get (cleaned_data rename_case) "device") row = true)
  /\ (result (AccessListForm.clean rename_case) edge_in_on_D1 = Raised DuplicateName
      \/ result (AccessListForm.clean rename_case) edge_in_on_D1
         = Returned (cleaned_data rename_case)).
Proof.
  apply (AccessListForm_clean_changed rename_case edge_in_on_D1).
  - intros H. vm_compute in H. discriminate.
  - vm_compute. reflexivity.
Defined.

(** C1: on a changed submission the validator is to fail exactly when an
    AccessList other than the one being edited matches, so that editing an
    AccessList to change only the letter case of its own name is accepted.
    The code misses that case. The AccessList 10 is the only one of the
    table; editing it from "Edge-In" to "edge-in" changes the name, no
    other AccessList matches, and yet [clean] raises DuplicateName: the
    existence check matches the edited row itself, which the
    [changed_data] test guards against only when the name is untouched. *)
Theorem case_only_rename_rejected :
  instance rename_case = Some 10
  /\ errors_get (errors rename_case) "name" = false
  /\ name_or_device_changed rename_case = true
  /\ spec_other_acl_matches rename_case edge_in_on_D1 = false
  /\ result (AccessListForm.clean rename_case) edge_in_on_D1 = Raised DuplicateName.
Proof. vm_compute. repeat split; reflexivity. Qed.

(** C4: for every device and every pair of names equal under
    case-insensitive comparison, if an AccessList with the first name
    exists on the device, creating an AccessList with the second name on
    the same device fails with DuplicateName. *)
Theorem second_create_fails (db : database) (self : form) (d : Z)
    (n1 n2 : string) (row : AccessList) :
  In row (access_lists db) ->
  acl_device row = d ->
  acl_name row = n1 ->
  iexact n1 n2 = true ->
  creates self n2 d ->
  result (AccessListForm.clean self) db = Raised DuplicateName.
Proof.
  intros Hin Hd Hn Heq (_ & Herr & Hname & Hdev & Hchg & _).
  unfold result. rewrite AccessListForm_clean_run, Herr.
  unfold name_or_device_changed. rewrite Hchg. simpl.
  replace (duplicate_exists self db) with true; [reflexivity|].
  symmetry. apply duplicate_exists_iff. exists row.
  rewrite Hname, Hdev. simpl. rewrite Hn, Hd, Heq, Z.eqb_refl. auto.
Qed.

Lemma second_create_fails_witness :
  result (AccessListForm.clean (submission None "edge-in" D1 ["device"; "name"]))
         edge_in_on_D1
  = Raised DuplicateName.
Proof.
  apply (second_create_fails edge_in_on_D1
           (submission None "edge-in" D1 ["device"; "name"]) D1
           "Edge-In" "edge-in" (mkAccessList 10 "Edge-In" D1)).
  - left. reflexivity.
  - reflexivity.
  - reflexivity.
  - vm_compute. reflexivity.
  - vm_compute. repeat split; reflexivity.
Defined.

(** C5: uniqueness is scoped per device. Creating an AccessList succeeds
    when no AccessList of the same device has a case-insensitively equal
    name, whatever the AccessLists of other devices are called. *)
Theorem create_scoped_per_device (db : database) (self : form) (d : Z) (n : string) :
  creates self n d ->
  (forall row, In row (access_lists db) -> acl_device row = d ->
               iexact (acl_name row) n = false) ->
  result (AccessListForm.clean self) db = Returned (cleaned_data self).
Proof.
  intros (_ & Herr & Hname & Hdev & Hchg & _) Hfree.
  unfold result. rewrite AccessListForm_clean_run, Herr.
  unfold name_or_device_changed. rewrite Hchg. simpl.
  destruct (duplicate_exists self db) eqn:Hdup; [|reflexivity].
  apply duplicate_exists_iff in Hdup. destruct Hdup as (row & Hin & Hn & Hd).
  rewrite Hname in Hn. rewrite Hdev in Hd. simpl in Hn, Hd.
  apply Z.eqb_eq in Hd. rewrite (Hfree row Hin Hd) in Hn. discriminate.
Qed.

Lemma create_scoped_per_device_witness :
  result (AccessListForm.clean (submission None "Edge-In" D2 ["device"; "name"]))
         edge_in_on_D1
  = Returned (cleaned_data (submission None "Edge-In" D2 ["device"; "name"])).
Proof.
  apply (create_scoped_per_device edge_in_on_D1
           (submission None "Edge-In" D2 ["device"; "name"]) D2 "Edge-In").
  - vm_compute. repeat split; reflexivity.
  - intros row [<-|[]] Hd. vm_compute in Hd. discriminate.
Defined.

(** C6: when neither the name nor the device changed, [clean] returns
    [cleaned_data] whatever the table holds, without querying it. *)
Theorem unchanged_accepted (self : form) (db : database) :
  in_list "name" (changed_data self) = false ->
  in_list "device" (changed_data self) = false ->
  result (AccessListForm.clean self) db = Returned (cleaned_data self)
  /\ queries (AccessListForm.clean self) db = [].
Proof.
  intros Hn Hd. unfold result, queries. rewrite AccessListForm_clean_run.
  unfold name_or_device_changed. rewrite Hn, Hd. simpl.
  destruct (errors_get (errors self) "name"); split; reflexivity.
Qed.

Lemma unchanged_accepted_witness :
  result (AccessListForm.clean (submission (Some 11) "EDGE-IN" D1 ["comments"]))
         edge_in_on_D1
  = Returned (cleaned_data (submission (Some 11) "EDGE-IN" D1 ["comments"]))
  /\ queries (AccessListForm.clean (submission (Some 11) "EDGE-IN" D1 ["comments"]))
             edge_in_on_D1 = [].
Proof.
  apply (unchanged_accepted (submission (Some 11) "EDGE-IN" D1 ["comments"])
           edge_in_on_D1); reflexivity.
Defined.

(** C9: when the name field already carries a field error, [clean]
    returns [cleaned_data] at once: the existence check is not performed
    and no DuplicateName error is raised. *)
Theorem name_error_returns_early (self : form) (db : database) :
  errors_get (errors self) "name" = true ->
  result (AccessListForm.clean self) db = Returned (cleaned_data self)
  /\ queries (AccessListForm.clean self) db = []
  /\ final_db (AccessListForm.clean self) db = db.
Proof.
  intros Herr. unfold result, queries, final_db.
  rewrite AccessListForm_clean_run, Herr. auto.
Qed.

Lemma name_error_returns_early_witness :
  result (AccessListForm.clean name_rejected) edge_in_on_D1
  = Returned (cleaned_data name_rejected)
  /\ queries (AccessListForm.clean name_rejected) edge_in_on_D1 = []
  /\ final_db (AccessListForm.clean name_rejected) edge_in_on_D1 = edge_in_on_D1.
Proof.
  apply (name_error_returns_early name_rejected edge_in_on_D1).
  vm_compute. reflexivity.
Defined.

(** ** Rules: a remark excludes the logic fields *)

(** C2: a standard rule with a non-empty remark and at least one of
    action and source_prefix populated fails with the
    MutuallyExclusiveFields error of the first populated field in the order
    action, source_prefix; when action is populated the conflict reported
    is action. *)
Theorem standard_conflict_reported (self : form) (db : database) :
  truthy (dict_get (cleaned_data self) "remark") = true ->
  populated (cleaned_data self) Action = true
  \/ populated (cleaned_data self) SourcePrefix = true ->
  (exists fld,
     first_populated standard_fields (cleaned_data self) = Some fld
     /\ result (ACLStandardRuleForm.clean self) db = Raised (MutuallyExclusiveFields fld))
  /\ (populated (cleaned_data self) Action = true ->
      result (ACLStandardRuleForm.clean self) db = Raised (MutuallyExclusiveFields Action))
  /\ (populated (cleaned_data self) Action = false ->
      result (ACLStandardRuleForm.clean self) db
      = Raised (MutuallyExclusiveFields SourcePrefix)).
Proof.
  intros Hremark Hsome. unfold result.
  rewrite ACLStandardRuleForm_clean_run, Hremark. simpl.
  unfold first_populated, standard_fields. simpl.
  destruct (populated (cleaned_data self) Action) eqn:Ha.
  - split; [eauto|]. split; [reflexivity|discriminate].
  - destruct Hsome as [Hs|Hs]; [discriminate|]. rewrite Hs.
    split; [eauto|]. split; [discriminate|reflexivity].
Qed.

Lemma standard_conflict_reported_witness :
  (exists fld,
     first_populated standard_fields (cleaned_data remark_action_prefix) = Some fld
     /\ result (ACLStandardRuleForm.clean remark_action_prefix) edge_in_on_D1
        = Raised (MutuallyExclusiveFields fld))
  /\ (populated (cleaned_data remark_action_prefix) Action = true ->
      result (ACLStandardRuleForm.clean remark_action_prefix) edge_in_on_D1
      = Raised (MutuallyExclusiveFields Action))
  /\ (populated (cleaned_data remark_action_prefix) Action = false ->
      result (ACLStandardRuleForm.clean remark_action_prefix) edge_in_on_D1
      = Raised (MutuallyExclusiveFields SourcePrefix)).
Proof.
  apply (standard_conflict_reported remark_action_prefix edge_in_on_D1).
  - vm_compute. reflexivity.
  - left. vm_compute. reflexivity.
Defined.

(** C3: an extended rule with a non-empty remark and at least one of the
    six logic fields populated fails with the MutuallyExclusiveFields error
    of the first populated field in the order action, source_prefix,
    source_ports, destination_prefix, destination_ports, protocol; with
    protocol alone populated, the conflict reported is protocol. *)
Theorem extended_conflict_reported (self : form) (db : database) :
  truthy (dict_get (cleaned_data self) "remark") = true ->
  existsb (populated (cleaned_data self)) extended_fields = true ->
  (exists fld,
     first_populated extended_fields (cleaned_data self) = Some fld
     /\ result (ACLExtendedRuleForm.clean self) db = Raised (MutuallyExclusiveFields fld))
  /\ (forallb (fun fld => negb (populated (cleaned_data self) fld))
              [Action; SourcePrefix; SourcePorts; DestinationPrefix; DestinationPorts]
      = true ->
      result (ACLExtendedRuleForm.clean self) db
      = Raised (MutuallyExclusiveFields Protocol)).
Proof.
  intros Hremark Hsome. unfold result.
  rewrite ACLExtendedRuleForm_clean_run, Hremark. cbn [fst].
  split.
  - destruct (first_populated_some _ _ Hsome) as [fld Hfld].
    exists fld. rewrite Hfld. auto.
  - revert Hsome. unfold first_populated, extended_fields. simpl.
    destruct (populated (cleaned_data self) Action); [discriminate|].
    destruct (populated (cleaned_data self) SourcePrefix); [discriminate|].
    destruct (populated (cleaned_data self) SourcePorts); [discriminate|].
    destruct (populated (cleaned_data self) DestinationPrefix); [discriminate|].
    destruct (populated (cleaned_data self) DestinationPorts); [discriminate|].
    simpl. destruct (populated (cleaned_data self) Protocol); [reflexivity|discriminate].
Qed.

Lemma extended_conflict_reported_witness :
  result (ACLExtendedRuleForm.clean remark_and_protocol) edge_in_on_D1
  = Raised (MutuallyExclusiveFields Protocol).
Proof.
  apply (extended_conflict_reported remark_and_protocol edge_in_on_D1);
    vm_compute; reflexivity.
Defined.

(** C7: a standard rule with a remark alone (action and source_prefix
    empty) passes, and a standard rule with action and source_prefix set
    and no remark passes: [clean] returns [cleaned_data] in both cases. *)
Theorem standard_accepts (self : form) (db : database) :
  (truthy (dict_get (cleaned_data self) "remark") = true ->
   populated (cleaned_data self) Action = false ->
   populated (cleaned_data self) SourcePrefix = false ->
   result (ACLStandardRuleForm.clean self) db = Returned (cleaned_data self))
  /\ (truthy (dict_get (cleaned_data self) "remark") = false ->
      populated (cleaned_data self) Action = true ->
      populated (cleaned_data self) SourcePrefix = true ->
      result (ACLStandardRuleForm.clean self) db = Returned (cleaned_data self)).
Proof.
  unfold result. rewrite ACLStandardRuleForm_clean_run.
  unfold first_populated, standard_fields. simpl.
  split.
  - intros -> -> ->. reflexivity.
  - intros -> _ _. reflexivity.
Qed.

Lemma standard_accepts_witness :
  result (ACLStandardRuleForm.clean remark_only) edge_in_on_D1
  = Returned (cleaned_data remark_only)
  /\ result (ACLStandardRuleForm.clean action_and_prefix) edge_in_on_D1
     = Returned (cleaned_data action_and_prefix).
Proof.
  split.
  - apply (proj1 (standard_accepts remark_only edge_in_on_D1));
      vm_compute; reflexivity.
  - apply (proj2 (standard_accepts action_and_prefix edge_in_on_D1));
      vm_compute; reflexivity.
Defined.

(** C10: the exclusivity validators are one-directional. With an empty
    remark, the standard and the extended validator return [cleaned_data]
    for every combination of the logic fields: nothing requires a rule
    without a remark to populate any of them. *)
Theorem empty_remark_accepts (self : form) (db : database) :
  truthy (dict_get (cleaned_data self) "remark") = false ->
  result (ACLStandardRuleForm.clean self) db = Returned (cleaned_data self)
  /\ result (ACLExtendedRuleForm.clean self) db = Returned (cleaned_data self).
Proof.
  intros Hremark. unfold result.
  rewrite ACLStandardRuleForm_clean_run, ACLExtendedRuleForm_clean_run, Hremark.
  split; reflexivity.
Qed.

Lemma empty_remark_accepts_witness :
  (result (ACLStandardRuleForm.clean empty_rule) edge_in_on_D1
   = Returned (cleaned_data empty_rule)
   /\ result (ACLExtendedRuleForm.clean empty_rule) edge_in_on_D1
      = Returned (cleaned_data empty_rule))
  /\ (result (ACLStandardRuleForm.clean action_only) edge_in_on_D1
      = Returned (cleaned_data action_only)
      /\ result (ACLExtendedRuleForm.clean action_only) edge_in_on_D1
         = Returned (cleaned_data action_only)).
Proof.
  split.
  - apply (empty_remark_accepts empty_rule edge_in_on_D1). vm_compute. reflexivity.
  - apply (empty_remark_accepts action_only edge_in_on_D1). vm_compute. reflexivity.
Defined.

(** ** Further properties of the rule validators *)

Lemma conflict_message_inj (f g : logic_field) :
  conflict_message f = conflict_message g -> f = g.
Proof. destruct f, g; simpl; intros H; try reflexivity; discriminate H. Qed.

Lemma MutuallyExclusiveFields_inj (f g : logic_field) :
  MutuallyExclusiveFields f = MutuallyExclusiveFields g -> f = g.
Proof. unfold MutuallyExclusiveFields. intros [= H]. exact (conflict_message_inj _ _ H). Qed.

Lemma first_populated_none (fields : list logic_field) (cd : gmap string value) :
  first_populated fields cd = None <-> existsb (populated cd) fields = false.
Proof.
  unfold first_populated. induction fields as [|fld fields IH]; simpl.
  - tauto.
  - destruct (populated cd fld); simpl; [split; discriminate|exact IH].
Qed.

(** The outcome of a rule validator, read through [first_populated]. *)
Lemma standard_result (self : form) (db : database) :
  result (ACLStandardRuleForm.clean self) db =
    if truthy (dict_get (cleaned_data self) "remark") then
      match first_populated standard_fields (cleaned_data self) with
      | Some fld => Raised (MutuallyExclusiveFields fld)
      | None => Returned (cleaned_data self)
      end
    else Returned (cleaned_data self).
Proof. unfold result. rewrite ACLStandardRuleForm_clean_run. reflexivity. Qed.

Lemma extended_result (self : form) (db : database) :
  result (ACLExtendedRuleForm.clean self) db =
    if truthy (dict_get (cleaned_data self) "remark") then
      match first_populated extended_fields (cleaned_data self) with
      | Some fld => Raised (MutuallyExclusiveFields fld)
      | None => Returned (cleaned_data self)
      end
    else Returned (cleaned_data self).
Proof. unfold result. rewrite ACLExtendedRuleForm_clean_run. reflexivity. Qed.

(** X1: a rule validator rejects exactly when the remark is set and some
    logic field of its form is populated: action or source_prefix for a
    standard rule, any of the six for an extended rule. In particular an
    extended rule with a remark alone passes. *)
Theorem rule_rejects_iff (self : form) (db : database) :
  ((exists e, result (ACLStandardRuleForm.clean self) db = Raised e) <->
   truthy (dict_get (cleaned_data self) "remark") = true
   /\ existsb (populated (cleaned_data self)) standard_fields = true)
  /\ ((exists e, result (ACLExtendedRuleForm.clean self) db = Raised e) <->
      truthy (dict_get (cleaned_data self) "remark") = true
      /\ existsb (populated (cleaned_data self)) extended_fields = true).
Proof.
  rewrite standard_result, extended_result.
  destruct (truthy (dict_get (cleaned_data self) "remark")).
  - split.
    + destruct (first_populated standard_fields (cleaned_data self)) as [fld|] eqn:Hf.
      * split; [intros _; split; [reflexivity|]|eauto].
        destruct (existsb _ standard_fields) eqn:He; [reflexivity|].
        apply first_populated_none in He. congruence.
      * apply first_populated_none in Hf. rewrite Hf.
        split; [intros [e He]; discriminate|intros [_ H]; discriminate].
    + destruct (first_populated extended_fields (cleaned_data self)) as [fld|] eqn:Hf.
      * split; [intros _; split; [reflexivity|]|eauto].
        destruct (existsb _ extended_fields) eqn:He; [reflexivity|].
        apply first_populated_none in He. congruence.
      * apply first_populated_none in Hf. rewrite Hf.
        split; [intros [e He]; discriminate|intros [_ H]; discriminate].
  - split; (split; [intros [e He]; discriminate|intros [H _]; discriminate]).
Qed.

(** X2: the field an error names is a real conflict. When a rule
    validator raises the MutuallyExclusiveFields error of [fld], the remark
    is set, [fld] is populated, [fld] is a logic field of that form and
    every logic field tested before it is empty. *)
Theorem reported_field_is_first_conflict (self : form) (db : database)
    (fld : logic_field) :
  (result (ACLStandardRuleForm.clean self) db = Raised (MutuallyExclusiveFields fld) ->
   truthy (dict_get (cleaned_data self) "remark") = true
   /\ populated (cleaned_data self) fld = true
   /\ exists before after,
        standard_fields = (before ++ fld :: after)%list
        /\ forallb (fun g => negb (populated (cleaned_data self) g)) before = true)
  /\ (result (ACLExtendedRuleForm.clean self) db = Raised (MutuallyExclusiveFields fld) ->
      truthy (dict_get (cleaned_data self) "remark") = true
      /\ populated (cleaned_data self) fld = true
      /\ exists before after,
           extended_fields = (before ++ fld :: after)%list
           /\ forallb (fun g => negb (populated (cleaned_data self) g)) before = true).
Proof.
  rewrite standard_result, extended_result.
  destruct (truthy (dict_get (cleaned_data self) "remark"));
    [|split; discriminate].
  split.
  - destruct (first_populated standard_fields (cleaned_data self)) as [g|] eqn:Hf;
      [|discriminate].
    intros [= H]. apply conflict_message_inj in H. subst g.
    destruct (first_populated_first _ _ _ Hf) as (before & after & Hsplit & Hp & Hb).
    eauto 6.
  - destruct (first_populated extended_fields (cleaned_data self)) as [g|] eqn:Hf;
      [|discriminate].
    intros [= H]. apply conflict_message_inj in H. subst g.
    destruct (first_populated_first _ _ _ Hf) as (before & after & Hsplit & Hp & Hb).
    eauto 6.
Qed.

Lemma reported_field_is_first_conflict_witness :
  truthy (dict_get (cleaned_data remark_and_protocol) "remark") = true
  /\ populated (cleaned_data remark_and_protocol) Protocol = true
  /\ exists before after,
       extended_fields = (before ++ Protocol :: after)%list
       /\ forallb (fun g => negb (populated (cleaned_data remark_and_protocol) g)) before
          = true.
Proof.
  apply (proj2 (reported_field_is_first_conflict remark_and_protocol edge_in_on_D1
                  Protocol)).
  vm_compute. reflexivity.
Defined.

(** X3: which errors a validator can raise. The AccessList validator
    raises nothing but DuplicateName; the standard rule validator nothing
    but the conflicts of action and source_prefix; the extended rule
    validator nothing but the conflict of one of the six logic fields; and
    no conflict error is the DuplicateName error. *)
Theorem errors_raised (self : form) (db : database) (e : error) :
  (result (AccessListForm.clean self) db = Raised e -> e = DuplicateName)
  /\ (result (ACLStandardRuleForm.clean self) db = Raised e ->
      e = MutuallyExclusiveFields Action \/ e = MutuallyExclusiveFields SourcePrefix)
  /\ (result (ACLExtendedRuleForm.clean self) db = Raised e ->
      exists fld, In fld extended_fields /\ e = MutuallyExclusiveFields fld)
  /\ (forall fld, MutuallyExclusiveFields fld <> DuplicateName).
Proof.
  split; [|split; [|split]].
  - unfold result. rewrite AccessListForm_clean_run.
    destruct (errors_get (errors self) "name"); [discriminate|].
    destruct (name_or_device_changed self); [|discriminate].
    destruct (duplicate_exists self db); [|discriminate].
    intros [= <-]. reflexivity.
  - rewrite standard_result.
    destruct (truthy (dict_get (cleaned_data self) "remark")); [|discriminate].
    unfold first_populated, standard_fields. simpl.
    destruct (populated (cleaned_data self) Action); [intros [= <-]; auto|].
    destruct (populated (cleaned_data self) SourcePrefix); [intros [= <-]; auto|].
    discriminate.
  - rewrite extended_result.
    destruct (truthy (dict_get (cleaned_data self) "remark")); [|discriminate].
    destruct (first_populated extended_fields (cleaned_data self)) as [g|] eqn:Hf;
      [|discriminate].
    intros [= <-]. exists g. split; [|reflexivity].
    destruct g; simpl; tauto.
  - intros fld. destruct fld; discriminate.
Qed.

Lemma errors_raised_witness :
  ValidationError "Cannot input a remark AND a protocol. Remove one."
  = DuplicateName
  \/ exists fld, In fld extended_fields
       /\ ValidationError "Cannot input a remark AND a protocol. Remove one."
          = MutuallyExclusiveFields fld.
Proof.
  right.
  apply (proj1 (proj2 (proj2 (errors_raised remark_and_protocol edge_in_on_D1
                                (ValidationError
                                   "Cannot input a remark AND a protocol. Remove one."))))).
  vm_compute. reflexivity.
Defined.

(** X4: the extended validator extends the standard one. On the same
    submission, whatever the standard validator rejects the extended
    validator rejects with the same error, and whatever the extended
    validator accepts the standard validator accepts. *)
Theorem extended_refines_standard (self : form) (db : database) :
  (forall e, result (ACLStandardRuleForm.clean self) db = Raised e ->
             result (ACLExtendedRuleForm.clean self) db = Raised e)
  /\ (result (ACLExtendedRuleForm.clean self) db = Returned (cleaned_data self) ->
      result (ACLStandardRuleForm.clean self) db = Returned (cleaned_data self)).
Proof.
  rewrite standard_result, extended_result.
  destruct (truthy (dict_get (cleaned_data self) "remark")); [|split; auto].
  unfold first_populated, standard_fields, extended_fields. simpl.
  destruct (populated (cleaned_data self) Action); [split; [auto|discriminate]|].
  destruct (populated (cleaned_data self) SourcePrefix); [split; [auto|discriminate]|].
  split; [discriminate|reflexivity].
Qed.

Lemma extended_refines_standard_witness :
  result (ACLExtendedRuleForm.clean remark_action_prefix) edge_in_on_D1
  = Raised (MutuallyExclusiveFields Action)
  /\ result (ACLStandardRuleForm.clean remark_only) edge_in_on_D1
     = Returned (cleaned_data remark_only).
Proof.
  split.
  - apply (proj1 (extended_refines_standard remark_action_prefix edge_in_on_D1)).
    vm_compute. reflexivity.
  - apply (proj2 (extended_refines_standard remark_only edge_in_on_D1)).
    vm_compute. reflexivity.
Defined.

Lemma same_truth_populated (fields : list logic_field) (keys : list string)
    (cd cd' : gmap string value) :
  (forall fld, In fld fields -> In (field_key fld) keys) ->
  same_truth keys cd cd' ->
  first_populated fields cd = first_populated fields cd'.
Proof.
  intros Hkeys Hsame. unfold first_populated.
  induction fields as [|fld fields IH]; simpl; [reflexivity|].
  unfold populated at 1 3. rewrite (Hsame (field_key fld)).
  - rewrite IH; [reflexivity|]. intros g Hg. apply Hkeys. right. exact Hg.
  - apply Hkeys. left. reflexivity.
Qed.

(** X5: a rule validator looks at nothing but the truth values of the
    fields it names. Two submissions whose remark, action and source_prefix
    have the same truth values get the same verdict from the standard
    validator, whatever else they carry (index, tags, access list, ports,
    an absent key against an empty value) and whatever the database holds;
    likewise the extended validator and its seven fields. *)
Theorem rule_verdict_depends_on_truth_values (self self' : form) (db db' : database) :
  (same_truth standard_keys (cleaned_data self) (cleaned_data self') ->
   verdict (ACLStandardRuleForm.clean self) db
   = verdict (ACLStandardRuleForm.clean self') db')
  /\ (same_truth extended_keys (cleaned_data self) (cleaned_data self') ->
      verdict (ACLExtendedRuleForm.clean self) db
      = verdict (ACLExtendedRuleForm.clean self') db').
Proof.
  unfold verdict. rewrite !standard_result, !extended_result.
  split; intros Hsame.
  - rewrite (Hsame "remark") by (left; reflexivity).
    rewrite (same_truth_populated standard_fields standard_keys
               (cleaned_data self) (cleaned_data self'));
      [|intros fld Hfld; right; apply in_map; exact Hfld|exact Hsame].
    destruct (truthy (dict_get (cleaned_data self') "remark")); [|reflexivity].
    destruct (first_populated standard_fields (cleaned_data self')); reflexivity.
  - rewrite (Hsame "remark") by (left; reflexivity).
    rewrite (same_truth_populated extended_fields extended_keys
               (cleaned_data self) (cleaned_data self'));
      [|intros fld Hfld; right; apply in_map; exact Hfld|exact Hsame].
    destruct (truthy (dict_get (cleaned_data self') "remark")); [|reflexivity].
    destruct (first_populated extended_fields (cleaned_data self')); reflexivity.
Qed.

Lemma rule_verdict_depends_on_truth_values_witness :
  verdict (ACLStandardRuleForm.clean remark_and_protocol) edge_in_on_D1
  = verdict (ACLStandardRuleForm.clean remark_only) (mkDatabase []).
Proof.
  apply (proj1 (rule_verdict_depends_on_truth_values remark_and_protocol remark_only
                  edge_in_on_D1 (mkDatabase []))).
  intros k [<-|[<-|[<-|[]]]]; vm_compute; reflexivity.
Defined.

(** ** Further properties of the AccessList validator *)

Lemma access_list_result (self : form) (db : database) :
  result (AccessListForm.clean self) db =
    if errors_get (errors self) "name" then Returned (cleaned_data self)
    else if name_or_device_changed self then
      if duplicate_exists self db then Raised DuplicateName
      else Returned (cleaned_data self)
    else Returned (cleaned_data self).
Proof.
  unfold result. rewrite AccessListForm_clean_run.
  destruct (errors_get (errors self) "name"); [reflexivity|].
  destruct (name_or_device_changed self); reflexivity.
Qed.

Lemma iexact_upper (a b : string) : iexact a b = true <-> upper a = upper b.
Proof. unfold iexact. apply String.eqb_eq. Qed.



(** X7: more AccessLists never turn a rejection into an acceptance. If
    the validator rejects a submission against a table, it rejects it with
    the same error against every table that holds at least the same rows,
    in any order. *)
Theorem rejection_monotone (self : form) (db db' : database) (e : error) :
  (forall row, In row (access_lists db) -> In row (access_lists db')) ->
  result (AccessListForm.clean self) db = Raised e ->
  result (AccessListForm.clean self) db' = Raised e.
Proof.
  intros Hincl. rewrite !access_list_result.
  destruct (errors_get (errors self) "name"); [discriminate|].
  destruct (name_or_device_changed self); [|discriminate].
  destruct (duplicate_exists self db) eqn:Hdup; [|discriminate].
  intros [= <-].
  apply duplicate_exists_iff in Hdup. destruct Hdup as (row & Hin & Hn & Hd).
  replace (duplicate_exists self db') with true; [reflexivity|].
  symmetry. apply duplicate_exists_iff. exists row. auto.
Qed.

Lemma rejection_monotone_witness :
  result (AccessListForm.clean rename_case)
         (mkDatabase [mkAccessList 4 "core" D2; mkAccessList 10 "Edge-In" D1])
  = Raised DuplicateName.
Proof.
  apply (rejection_monotone rename_case edge_in_on_D1
           (mkDatabase [mkAccessList 4 "core" D2; mkAccessList 10 "Edge-In" D1])).
  - intros row [<-|[]]. right. left. reflexivity.
  - vm_compute. reflexivity.
Defined.

Lemma duplicate_exists_other (self : form) (db : database) :
  (forall row, In row (access_lists db) -> is_instance self row = true ->
               same_name_and_device (dict_get (cleaned_data self) "name")
                                    (dict_get (cleaned_data self) "device") row = false) ->
  duplicate_exists self db = spec_other_acl_matches self db.
Proof.
  unfold duplicate_exists, spec_other_acl_matches.
  induction (access_lists db) as [|row rows IH]; intros Hown; simpl; [reflexivity|].
  rewrite IH by (intros r Hr; apply Hown; right; exact Hr).
  destruct (is_instance self row) eqn:Hi; simpl; [|reflexivity].
  rewrite (Hown row (or_introl eq_refl) Hi). reflexivity.
Qed.

(** X8: where the validator does exclude the edited object. When no row
    of the object being edited carries the submitted name and device -- the
    object is new, or it is renamed to a name that differs by more than
    case, or it is moved to another device -- and name or device changed,
    the validator raises DuplicateName exactly when an AccessList other
    than the edited one has the same device and a case-insensitively equal
    name. *)
Theorem rejects_iff_other_acl_matches (self : form) (db : database) :
  errors_get (errors self) "name" = false ->
  name_or_device_changed self = true ->
  (forall row, In row (access_lists db) -> is_instance self row = true ->
               same_name_and_device (dict_get (cleaned_data self) "name")
                                    (dict_get (cleaned_data self) "device") row = false) ->
  (result (AccessListForm.clean self) db = Raised DuplicateName <->
   spec_other_acl_matches self db = true)
  /\ (result (AccessListForm.clean self) db = Returned (cleaned_data self) <->
      spec_other_acl_matches self db = false).
Proof.
  intros Herr Hchg Hown. rewrite access_list_result, Herr, Hchg.
  rewrite (duplicate_exists_other self db Hown).
  destruct (spec_other_acl_matches self db); split; split;
    solve [reflexivity | discriminate].
Qed.

Lemma rejects_iff_other_acl_matches_witness :
  (result (AccessListForm.clean (submission (Some 10) "Edge-In" D2 ["device"]))
          (mkDatabase [mkAccessList 10 "Edge-In" D1; mkAccessList 11 "EDGE-IN" D2])
   = Raised DuplicateName <->
   spec_other_acl_matches (submission (Some 10) "Edge-In" D2 ["device"])
     (mkDatabase [mkAccessList 10 "Edge-In" D1; mkAccessList 11 "EDGE-IN" D2]) = true)
  /\ (result (AccessListForm.clean (submission (Some 10) "Edge-In" D2 ["device"]))
             (mkDatabase [mkAccessList 10 "Edge-In" D1; mkAccessList 11 "EDGE-IN" D2])
      = Returned (cleaned_data (submission (Some 10) "Edge-In" D2 ["device"])) <->
      spec_other_acl_matches (submission (Some 10) "Edge-In" D2 ["device"])
        (mkDatabase [mkAccessList 10 "Edge-In" D1; mkAccessList 11 "EDGE-IN" D2]) = false).
Proof.
  apply (rejects_iff_other_acl_matches (submission (Some 10) "Edge-In" D2 ["device"])
           (mkDatabase [mkAccessList 10 "Edge-In" D1; mkAccessList 11 "EDGE-IN" D2])).
  - vm_compute. reflexivity.
  - vm_compute. reflexivity.
  - intros row [<-|[<-|[]]] Hi; vm_compute in Hi; [vm_compute; reflexivity|discriminate].
Defined.

Lemma acl_key_in (rows : list AccessList) (n : string) (d : Z) :
  In (d, upper n) (map acl_key rows) <->
  exists row, In row rows /\ name__iexact (VStr n) row = true
              /\ device_exact (VObj d) row = true.
Proof.
  rewrite in_map_iff. unfold acl_key, name__iexact, device_exact.
  split; intros (row & H1 & H2); exists row.
  - injection H1 as Hd Hn. split; [exact H2|]. split.
    + apply iexact_upper. exact Hn.
    + apply Z.eqb_eq. exact Hd.
  - destruct H2 as [Hn Hd]. apply iexact_upper in Hn. apply Z.eqb_eq in Hd.
    split; [|exact H1]. rewrite Hn, Hd. reflexivity.
Qed.

(** X9: the validator guards the uniqueness of names per device. Over a
    table whose names are unique per device, case-insensitively, a
    submission with a valid name in which name or device changed is
    accepted exactly when the table stays so with a row of the submitted
    name and device added. *)
Theorem accepted_iff_uniqueness_kept (self : form) (db : database)
    (n : string) (d pk : Z) :
  errors_get (errors self) "name" = false ->
  name_or_device_changed self = true ->
  dict_get (cleaned_data self) "name" = VStr n ->
  dict_get (cleaned_data self) "device" = VObj d ->
  unique_per_device (access_lists db) ->
  (result (AccessListForm.clean self) db = Returned (cleaned_data self) <->
   unique_per_device (mkAccessList pk n d :: access_lists db)).
Proof.
  intros Herr Hchg Hn Hd Huniq. rewrite access_list_result, Herr, Hchg.
  unfold unique_per_device in *. simpl. rewrite NoDup_cons.
  change (acl_key (mkAccessList pk n d)) with (d, upper n).
  rewrite list_elem_of_In, acl_key_in.
  destruct (duplicate_exists self db) eqn:Hdup.
  - apply duplicate_exists_iff in Hdup. rewrite Hn, Hd in Hdup.
    split; [discriminate|]. intros [Hnot _]. contradiction.
  - split; [|reflexivity]. intros _. split; [|exact Huniq].
    intros Hex. rewrite <- Hn, <- Hd in Hex. apply duplicate_exists_iff in Hex.
    congruence.
Qed.

Lemma accepted_iff_uniqueness_kept_witness :
  result (AccessListForm.clean (submission None "Edge-In" D2 ["device"; "name"]))
         edge_in_on_D1
  = Returned (cleaned_data (submission None "Edge-In" D2 ["device"; "name"])) <->
  unique_per_device (mkAccessList 11 "Edge-In" D2 :: access_lists edge_in_on_D1).
Proof.
  apply (accepted_iff_uniqueness_kept
           (submission None "Edge-In" D2 ["device"; "name"]) edge_in_on_D1
           "Edge-In" D2 11).
  - vm_compute. reflexivity.
  - vm_compute. reflexivity.
  - vm_compute. reflexivity.
  - vm_compute. reflexivity.
  - unfold unique_per_device. simpl. apply NoDup_singleton.
Defined.

(** X10: the verdict does not depend on the letter case of the submitted
    name. Two submissions for the same device whose names are equal under
    case-insensitive comparison, and that otherwise agree on name error and
    changed fields, get the same verdict. *)
Theorem verdict_ignores_case (self self' : form) (db : database) (n n' : string) :
  iexact n n' = true ->
  dict_get (cleaned_data self) "name" = VStr n ->
  dict_get (cleaned_data self') "name" = VStr n' ->
  dict_get (cleaned_data self) "device" = dict_get (cleaned_data self') "device" ->
  errors_get (errors self) "name" = errors_get (errors self') "name" ->
  name_or_device_changed self = name_or_device_changed self' ->
  verdict (AccessListForm.clean self) db = verdict (AccessListForm.clean self') db.
Proof.
  intros Hcase Hn Hn' Hd He Hc. unfold verdict. rewrite !access_list_result.
  rewrite He, Hc.
  assert (Hdup : duplicate_exists self db = duplicate_exists self' db).
  { unfold duplicate_exists. rewrite Hn, Hn', Hd.
    apply iexact_upper in Hcase.
    induction (access_lists db) as [|row rows IH]; simpl; [reflexivity|].
    rewrite IH. unfold same_name_and_device at 1 3. unfold name__iexact, iexact.
    rewrite Hcase. reflexivity. }
  rewrite Hdup.
  destruct (errors_get (errors self') "name"); [reflexivity|].
  destruct (name_or_device_changed self'); [|reflexivity].
  destruct (duplicate_exists self' db); reflexivity.
Qed.

Lemma verdict_ignores_case_witness :
  verdict (AccessListForm.clean (submission None "edge-in" D1 ["device"; "name"]))
          edge_in_on_D1
  = verdict (AccessListForm.clean (submission None "EDGE-in" D1 ["device"; "name"]))
            edge_in_on_D1.
Proof.
  apply (verdict_ignores_case (submission None "edge-in" D1 ["device"; "name"])
           (submission None "EDGE-in" D1 ["device"; "name"]) edge_in_on_D1
           "edge-in" "EDGE-in"); vm_compute; reflexivity.
Defined.

(** ** Validators and form declarations *)

Lemma dict_get_insert_ne (cd : gmap string value) (k k' : string) (v : value) :
  k <> k' -> dict_get (<[k:=v]> cd) k' = dict_get cd k'.
Proof. intros Hne. unfold dict_get. rewrite lookup_insert_ne by exact Hne. reflexivity. Qed.

Lemma standard_verdict_same_truth (self self' : form) (db : database) :
  same_truth standard_keys (cleaned_data self) (cleaned_data self') ->
  verdict (ACLStandardRuleForm.clean self) db
  = verdict (ACLStandardRuleForm.clean self') db.
Proof.
  intros Hsame. unfold verdict. rewrite !standard_result.
  rewrite (Hsame "remark") by (left; reflexivity).
  rewrite (same_truth_populated standard_fields standard_keys
             (cleaned_data self) (cleaned_data self'));
    [|intros fld Hfld; right; apply in_map; exact Hfld|exact Hsame].
  destruct (truthy (dict_get (cleaned_data self') "remark")); [|reflexivity].
  destruct (first_populated standard_fields (cleaned_data self')); reflexivity.
Qed.

Lemma extended_verdict_same_truth (self self' : form) (db : database) :
  same_truth extended_keys (cleaned_data self) (cleaned_data self') ->
  verdict (ACLExtendedRuleForm.clean self) db
  = verdict (ACLExtendedRuleForm.clean self') db.
Proof.
  intros Hsame. unfold verdict. rewrite !extended_result.
  rewrite (Hsame "remark") by (left; reflexivity).
  rewrite (same_truth_populated extended_fields extended_keys
             (cleaned_data self) (cleaned_data self'));
    [|intros fld Hfld; right; apply in_map; exact Hfld|exact Hsame].
  destruct (truthy (dict_get (cleaned_data self') "remark")); [|reflexivity].
  destruct (first_populated extended_fields (cleaned_data self')); reflexivity.
Qed.

(** Setting a key outside [fields] leaves the truth values under [keys]
    alone when every key of [keys] is one of [fields]. *)
Lemma same_truth_insert (keys fields : list string) (cd : gmap string value)
    (k : string) (v : value) :
  (forall k', In k' keys -> In k' fields) ->
  ~ In k fields ->
  same_truth keys (<[k:=v]> cd) cd.
Proof.
  intros Hsub Hout k' Hk'. rewrite dict_get_insert_ne; [reflexivity|].
  intros ->. apply Hout, Hsub, Hk'.
Qed.

Lemma first_truthy_fields (fields : list logic_field) (cd : gmap string value) :
  first_truthy (map field_key fields) cd = field_key <$> first_populated fields cd.
Proof.
  unfold first_truthy, first_populated, populated.
  induction fields as [|fld fields IH]; simpl; [reflexivity|].
  destruct (truthy (dict_get cd (field_key fld))); [reflexivity|exact IH].
Qed.

(** X11: the validators fit the declarations of their forms. The verdict
    of each [clean] is unaffected by setting a [cleaned_data] key that is
    not a declared [Meta] field of its form. And a rule validator follows
    its rule fieldset: when the first field the fieldset shows (the remark)
    is set, [clean] raises the conflict of the first populated field among
    the remaining ones in display order, and returns [cleaned_data] when
    none of them is populated. *)
Theorem verdict_follows_declarations (self : form) (db : database) :
  (forall k v, ~ In k AccessListForm_fields ->
     verdict (AccessListForm.clean
                (with_cleaned_data self (<[k:=v]> (cleaned_data self)))) db
     = verdict (AccessListForm.clean self) db)
  /\ (forall k v, ~ In k ACLStandardRuleForm_fields ->
        verdict (ACLStandardRuleForm.clean
                   (with_cleaned_data self (<[k:=v]> (cleaned_data self)))) db
        = verdict (ACLStandardRuleForm.clean self) db)
  /\ (forall k v, ~ In k ACLExtendedRuleForm_fields ->
        verdict (ACLExtendedRuleForm.clean
                   (with_cleaned_data self (<[k:=v]> (cleaned_data self)))) db
        = verdict (ACLExtendedRuleForm.clean self) db)
  /\ (forall first rest,
        fieldset_named "Rule Logic" ACLStandardRuleForm_fieldsets = first :: rest ->
        truthy (dict_get (cleaned_data self) first) = true ->
        match first_truthy rest (cleaned_data self) with
        | Some k => exists fld,
            field_key fld = k
            /\ result (ACLStandardRuleForm.clean self) db
               = Raised (MutuallyExclusiveFields fld)
        | None => result (ACLStandardRuleForm.clean self) db
                  = Returned (cleaned_data self)
        end)
  /\ (forall first rest,
        fieldset_named "Rule Details" ACLExtendedRuleForm_fieldsets = first :: rest ->
        truthy (dict_get (cleaned_data self) first) = true ->
        match first_truthy rest (cleaned_data self) with
        | Some k => exists fld,
            field_key fld = k
            /\ result (ACLExtendedRuleForm.clean self) db
               = Raised (MutuallyExclusiveFields fld)
        | None => result (ACLExtendedRuleForm.clean self) db
                  = Returned (cleaned_data self)
        end).
Proof.
  split; [|split; [|split; [|split]]].
  - intros k v Hout. unfold verdict. rewrite !access_list_result.
    unfold with_cleaned_data, name_or_device_changed, duplicate_exists. simpl.
    assert (Hn : k <> "name") by (intros ->; apply Hout; simpl; tauto).
    assert (Hd : k <> "device") by (intros ->; apply Hout; simpl; tauto).
    rewrite (dict_get_insert_ne _ _ _ v Hn), (dict_get_insert_ne _ _ _ v Hd).
    destruct (errors_get (errors self) "name"); [reflexivity|].
    destruct (_ || _)%bool; [|reflexivity].
    destruct (existsb _ _); reflexivity.
  - intros k v Hout. apply standard_verdict_same_truth. simpl.
    apply (same_truth_insert standard_keys ACLStandardRuleForm_fields); [|exact Hout].
    intros k' Hk'. simpl in Hk'.
    repeat (destruct Hk' as [<-|Hk']; [simpl; tauto|]). destruct Hk'.
  - intros k v Hout. apply extended_verdict_same_truth. simpl.
    apply (same_truth_insert extended_keys ACLExtendedRuleForm_fields); [|exact Hout].
    intros k' Hk'. simpl in Hk'.
    repeat (destruct Hk' as [<-|Hk']; [simpl; tauto|]). destruct Hk'.
  - intros first rest Hfs Hremark.
    change (fieldset_named "Rule Logic" ACLStandardRuleForm_fieldsets)
      with ("remark" :: map field_key standard_fields) in Hfs.
    injection Hfs as <- <-.
    change (first_truthy _ (cleaned_data self))
      with (first_truthy (map field_key standard_fields) (cleaned_data self)).
    rewrite first_truthy_fields, standard_result, Hremark.
    destruct (first_populated standard_fields (cleaned_data self)) as [fld|]; simpl;
      eauto.
  - intros first rest Hfs Hremark.
    change (fieldset_named "Rule Details" ACLExtendedRuleForm_fieldsets)
      with ("remark" :: map field_key extended_fields) in Hfs.
    injection Hfs as <- <-.
    change (first_truthy _ (cleaned_data self))
      with (first_truthy (map field_key extended_fields) (cleaned_data self)).
    rewrite first_truthy_fields, extended_result, Hremark.
    destruct (first_populated extended_fields (cleaned_data self)) as [fld|]; simpl;
      eauto.
Qed.

Lemma verdict_follows_declarations_witness :
  (exists fld,
     field_key fld = "protocol"
     /\ result (ACLExtendedRuleForm.clean remark_and_protocol) edge_in_on_D1
        = Raised (MutuallyExclusiveFields fld))
  /\ verdict (ACLStandardRuleForm.clean
                (with_cleaned_data remark_only
                   (<["protocol" := VStr "tcp"]> (cleaned_data remark_only))))
             edge_in_on_D1
     = verdict (ACLStandardRuleForm.clean remark_only) edge_in_on_D1.
Proof.
  split.
  - exact (proj2 (proj2 (proj2 (proj2
             (verdict_follows_declarations remark_and_protocol edge_in_on_D1))))
             "remark"
             ["action"; "source_prefix"; "source_ports"; "destination_prefix";
              "destination_ports"; "protocol"]
             eq_refl eq_refl).
  - apply (proj1 (proj2 (verdict_follows_declarations remark_only edge_in_on_D1))).
    intros Hin. simpl in Hin.
    repeat (destruct Hin as [Hin|Hin]; [discriminate Hin|]). exact Hin.
Defined.
